(** * chronolog: prefixed logging with beacon timers

    A shallow embedding of [chronolog/logger.py].  The module is glue over
    Python's [logging] package, so the embedding has three layers:

    - the part of the platform the code talks to (logger channels that
      receive calls, the root logger's handlers, [print], [time.time]);
    - the process-wide initializer [setup_logging] and the factory
      [get_prefixed_logger], written in a small state-and-exception monad;
    - the [PrefixedLogger] facade, whose methods are state transformers over
      the instance ([self]), the process ([world]) and the clock. *)

From Stdlib Require Import ZArith Floats DecimalString.
From stdpp Require Import base strings gmap list.

Local Open Scope Z_scope.

(** ** Python values and exceptions *)

(** Values that travel through [*args] and [**kwargs]; the facade never
    inspects them. *)
Inductive PyVal :=
| PyNone
| PyStr (s : string)
| PyInt (z : Z)
| PyBool (b : bool).

Definition Args : Type := list PyVal.
Definition Kwargs : Type := list (string * PyVal).

(** An instance of (a subclass of) [Exception]: its class name and [str(e)]. *)
Record Exn := { exc_type : string; exc_str : string }.

Inductive PyResult (A : Type) :=
| Returned (a : A)
| Raised (e : Exn).
Arguments Returned {A} a.
Arguments Raised {A} e.

(** [x or d] on an optional string: [None] and the empty string are falsy. *)
Definition py_or (x : option string) (d : string) : string :=
  match x with
  | Some s => if decide (s = "") then d else s
  | None => d
  end.

(** ** The platform: [logging], [print], [time] *)

Inductive Level := DEBUG | INFO | WARNING | ERROR | CRITICAL.

Definition levelno (l : Level) : Z :=
  match l with
  | DEBUG => 10 | INFO => 20 | WARNING => 30 | ERROR => 40 | CRITICAL => 50
  end.

Definition levelname (l : Level) : string :=
  match l with
  | DEBUG => "DEBUG" | INFO => "INFO" | WARNING => "WARNING"
  | ERROR => "ERROR" | CRITICAL => "CRITICAL"
  end.

(** One call received by a logger channel: [Logger.<level>(msg, *args,
    **kwargs)].  [call_exc_info] is set by [Logger.exception], which logs at
    [ERROR] with the active exception attached. *)
Record LogCall := {
  call_logger : string;
  call_level : Level;
  call_exc_info : bool;
  call_msg : string;
  call_args : Args;
  call_kwargs : Kwargs
}.

Inductive Handler :=
| StreamHandler
| CloudLoggingHandler (name : string)
| RotatingFileHandler (filename : string) (maxBytes backupCount : Z).

(** The state of the process: the module-level flag of [logger.py], the
    root logger as [logging.basicConfig] leaves it, the names of the
    [Logger] objects created so far, what was printed, and the calls the
    channels received (oldest first). *)
Record World := {
  _logging_configured : bool;
  root_handlers : list Handler;
  root_format : option string;
  root_level : Level;
  loggers : gset string;
  stdout : list string;
  calls : list LogCall
}.

(** A process in which nothing was configured yet. *)
Definition fresh_world : World :=
  {| _logging_configured := false; root_handlers := []; root_format := None;
     root_level := WARNING; loggers := ∅; stdout := []; calls := [] |}.

(** What the surroundings decide: whether [google.cloud.logging] could be
    imported, the environment variable, and the outcome of each sink
    constructor ([None]: an object is built; [Some e]: it raises [e]). *)
Record Env := {
  _GOOGLE_CLOUD_LOGGING_AVAILABLE : bool;
  environ_LOGGING_FILE_PATH : option string;
  Client_raises : option Exn;
  CloudLoggingHandler_raises : string → option Exn;
  RotatingFileHandler_raises : string → Z → Z → option Exn
}.

(** [LOGGING_FILE_PATH = os.environ.get("LOGGING_FILE_PATH", "logs.txt")] *)
Definition LOGGING_FILE_PATH (env : Env) : string :=
  default "logs.txt" (environ_LOGGING_FILE_PATH env).

(** *** State and exceptions *)

Definition PyM (A : Type) : Type := World → PyResult A * World.

Definition ret {A} (a : A) : PyM A := λ w, (Returned a, w).

Definition bind {A B} (m : PyM A) (k : A → PyM B) : PyM B :=
  λ w, match m w with
       | (Returned a, w') => k a w'
       | (Raised e, w') => (Raised e, w')
       end.

Definition raise {A} (e : Exn) : PyM A := λ w, (Raised e, w).

(** [try: body / except Exception as e: handler e] *)
Definition try_except {A} (body : PyM A) (handler : Exn → PyM A) : PyM A :=
  λ w, match body w with
       | (Returned a, w') => (Returned a, w')
       | (Raised e, w') => handler e w'
       end.

Notation "x <- m ;; k" := (bind m (λ x, k))
  (at level 100, m at next level, right associativity, only parsing).
Notation "m ;;; k" := (bind m (λ _, k))
  (at level 100, right associativity, only parsing).

Definition print (line : string) : PyM unit :=
  λ w, (Returned (),
        {| _logging_configured := _logging_configured w;
           root_handlers := root_handlers w; root_format := root_format w;
           root_level := root_level w; loggers := loggers w;
           stdout := stdout w ++ [line]; calls := calls w |}).

Definition set_logging_configured (b : bool) : PyM unit :=
  λ w, (Returned (),
        {| _logging_configured := b;
           root_handlers := root_handlers w; root_format := root_format w;
           root_level := root_level w; loggers := loggers w;
           stdout := stdout w; calls := calls w |}).

(** [logging.getLogger(name)]: the root logger for a falsy name or the name
    ["root"], otherwise the logger of that name, created on first use.  The
    result is the channel's name. *)
Definition getLogger (name : string) : PyM string :=
  λ w, if decide (name = "" ∨ name = "root") then (Returned "root", w)
       else (Returned name,
             {| _logging_configured := _logging_configured w;
                root_handlers := root_handlers w; root_format := root_format w;
                root_level := root_level w; loggers := {[name]} ∪ loggers w;
                stdout := stdout w; calls := calls w |}).

(** [logging.basicConfig(level=, format=, handlers=, force=True)]: the root
    logger's former handlers are removed, the given ones are installed with
    the format, and the level is set. *)
Definition basicConfig (level : Level) (format : string) (handlers : list Handler)
  : PyM unit :=
  λ w, (Returned (),
        {| _logging_configured := _logging_configured w;
           root_handlers := handlers; root_format := Some format;
           root_level := level; loggers := loggers w;
           stdout := stdout w; calls := calls w |}).

(** A sink constructor with the outcome the surroundings give it. *)
Definition construct (outcome : option Exn) (h : Handler) : PyM Handler :=
  match outcome with
  | None => ret h
  | Some e => raise e
  end.

(** [google.cloud.logging.Client()] *)
Definition Client (env : Env) : PyM unit :=
  match Client_raises env with
  | None => ret ()
  | Some e => raise e
  end.

(** ** The process-wide initializer *)

(** [setup_logging(logger_name, cloud_logger_name, enable_gcloud_logging)].
    The list [handlers] the source appends to is rebound after each [try]
    block; an exception raised by a constructor is an [Exn], which is what
    [except Exception] catches.  The result is the channel
    [logging.getLogger(logger_name)]. *)
Definition setup_logging (env : Env)
    (logger_name : string) (cloud_logger_name : option string)
    (enable_gcloud_logging : bool) : PyM string :=
  λ w,
  if _logging_configured w then getLogger logger_name w
  else
    (let handlers := [StreamHandler] in
     handlers <-
       (if enable_gcloud_logging && _GOOGLE_CLOUD_LOGGING_AVAILABLE env then
          try_except
            (Client env;;;
             cloud_handler <-
               construct
                 (CloudLoggingHandler_raises env (py_or cloud_logger_name logger_name))
                 (CloudLoggingHandler (py_or cloud_logger_name logger_name));;
             ret (handlers ++ [cloud_handler]))
            (λ e,
             print ("Warning: Could not initialize Google Cloud Logging. Functionality disabled: "
                    +:+ exc_str e);;;
             ret handlers)
        else if enable_gcloud_logging && negb (_GOOGLE_CLOUD_LOGGING_AVAILABLE env) then
          print "Warning: Google Cloud Logging requested but library is not available or failed to import.";;;
          ret handlers
        else ret handlers);;
     handlers <-
       try_except
         (rotation_handler <-
            construct
              (RotatingFileHandler_raises env (LOGGING_FILE_PATH env) (1024 * 1024 * 100) 5)
              (RotatingFileHandler (LOGGING_FILE_PATH env) (1024 * 1024 * 100) 5);;
          ret (handlers ++ [rotation_handler]))
         (λ e,
          print ("Warning: Could not initialize file logging: " +:+ exc_str e);;;
          ret handlers);;
     basicConfig INFO "%(asctime)s - %(levelname)s - %(message)s" handlers;;;
     set_logging_configured true;;;
     getLogger logger_name) w.

(** A call [setup_logging(...)] as a call site writes it: an argument left
    out takes the default of the signature
    [(logger_name="cloud_bear_logger", cloud_logger_name=None,
    enable_gcloud_logging=True)], and a keyword the signature does not
    declare ([extra]) makes Python raise [TypeError] before the body runs. *)
Definition call_setup_logging (env : Env)
    (logger_name : option string) (cloud_logger_name : option (option string))
    (enable_gcloud_logging : option bool) (extra : Kwargs) : PyM string :=
  match extra with
  | (k, _) :: _ =>
      raise {| exc_type := "TypeError";
               exc_str := "setup_logging() got an unexpected keyword argument '"
                          +:+ k +:+ "'" |}
  | [] =>
      setup_logging env (default "cloud_bear_logger" logger_name)
        (default None cloud_logger_name) (default true enable_gcloud_logging)
  end.

(** ** The facade *)

(** What the code needs of Python's [float]: the subtraction of two
    timestamps and the rendering [f"{x:.2f}"]. *)
Class PyFloat (T : Type) := {
  float_sub : T → T → T;
  format_2f : T → string
}.

Record PrefixedLogger (T : Type) := {
  logger : string;
  _prefix : string;
  _start_times : gmap string T
}.
Arguments logger {T} _.
Arguments _prefix {T} _.
Arguments _start_times {T} _.

(** [PrefixedLogger(logger_name, prefix)] *)
Definition __init__ {T} (logger_name : string) (prefix : option string)
  : PyM (PrefixedLogger T) :=
  logger <- getLogger logger_name;;
  ret {| logger := logger; _prefix := py_or prefix "no-prefix"; _start_times := ∅ |}.

Definition get_prefixed_logger {T} (env : Env)
    (logger_name : string) (prefix : option string)
    (cloud_logger_name : option string) (enable_gcloud_logging : bool)
  : PyM (PrefixedLogger T) :=
  setup_logging env logger_name cloud_logger_name enable_gcloud_logging;;;
  __init__ logger_name prefix.

(** A call [get_prefixed_logger(logger_name, ...)] as a call site writes
    it, with the defaults of the signature
    [(logger_name, prefix=None, cloud_logger_name=None,
    enable_gcloud_logging=False)]; an undeclared keyword raises
    [TypeError]. *)
Definition call_get_prefixed_logger {T} (env : Env)
    (logger_name : string) (prefix : option (option string))
    (cloud_logger_name : option (option string))
    (enable_gcloud_logging : option bool) (extra : Kwargs) : PyM (PrefixedLogger T) :=
  match extra with
  | (k, _) :: _ =>
      raise {| exc_type := "TypeError";
               exc_str := "get_prefixed_logger() got an unexpected keyword argument '"
                          +:+ k +:+ "'" |}
  | [] =>
      get_prefixed_logger env logger_name (default None prefix)
        (default None cloud_logger_name) (default false enable_gcloud_logging)
  end.

(** [time.time()]: the clock hands out its readings one by one. *)
Record Clock (T : Type) := { readings : nat → T; reads : nat }.
Arguments readings {T} _ _.
Arguments reads {T} _.

(** An instance at work: the object, the process and the clock. *)
Record State (T : Type) := {
  self : PrefixedLogger T;
  world : World;
  clock : Clock T
}.
Arguments self {T} _.
Arguments world {T} _.
Arguments clock {T} _.

Definition time_time {T} (st : State T) : T * State T :=
  (readings (clock st) (reads (clock st)),
   {| self := self st; world := world st;
      clock := {| readings := readings (clock st); reads := S (reads (clock st)) |} |}).

(** The channel end of [Logger.debug], [.info], [.warning], [.error],
    [.critical] and [.exception]: the call is recorded. *)
Definition Logger_call (level : Level) (exc_info : bool)
    (name msg : string) (args : Args) (kwargs : Kwargs) (w : World) : World :=
  {| _logging_configured := _logging_configured w;
     root_handlers := root_handlers w; root_format := root_format w;
     root_level := root_level w; loggers := loggers w; stdout := stdout w;
     calls := calls w ++
              [{| call_logger := name; call_level := level; call_exc_info := exc_info;
                  call_msg := msg; call_args := args; call_kwargs := kwargs |}] |}.

Definition Logger_debug := Logger_call DEBUG false.
Definition Logger_info := Logger_call INFO false.
Definition Logger_warning := Logger_call WARNING false.
Definition Logger_error := Logger_call ERROR false.
Definition Logger_critical := Logger_call CRITICAL false.
Definition Logger_exception := Logger_call ERROR true.

Section Facade.
Context {T : Type} `{PyFloat T}.

Definition _format_message (self : PrefixedLogger T) (message : string) : string :=
  "[" +:+ _prefix self +:+ "] " +:+ message.

Definition update_prefix (prefix : option string) (st : State T) : State T :=
  {| self := {| logger := logger (self st);
                _prefix := py_or prefix "no-prefix";
                _start_times := _start_times (self st) |};
     world := world st; clock := clock st |}.

(** [self.logger.<method>(self._format_message(message), *args, **kwargs)] *)
Definition forward (method : string → string → Args → Kwargs → World → World)
    (message : string) (args : Args) (kwargs : Kwargs) (st : State T) : State T :=
  {| self := self st;
     world := method (logger (self st)) (_format_message (self st) message)
                args kwargs (world st);
     clock := clock st |}.

Definition info := forward Logger_info.
Definition debug := forward Logger_debug.
Definition warning := forward Logger_warning.
Definition error := forward Logger_error.
Definition critical := forward Logger_critical.
Definition exception := forward Logger_exception.

Definition log_start (key message : string) (args : Args) (kwargs : Kwargs)
    (st : State T) : State T :=
  let '(now, st) := time_time st in
  let st := {| self := {| logger := logger (self st); _prefix := _prefix (self st);
                          _start_times := <[key := now]> (_start_times (self st)) |};
               world := world st; clock := clock st |} in
  let beacon_message := "(BEACON - [" +:+ key +:+ "] - START) " +:+ message in
  info beacon_message args kwargs st.

Definition log_end (key message : string) (args : Args) (kwargs : Kwargs)
    (st : State T) : State T :=
  let start_time := _start_times (self st) !! key in
  let st := {| self := {| logger := logger (self st); _prefix := _prefix (self st);
                          _start_times := delete key (_start_times (self st)) |};
               world := world st; clock := clock st |} in
  match start_time with
  | None =>
      let st :=
        warning ("log_end called for key '" +:+ key
                 +:+ "' without a corresponding log_start.") [] [] st in
      let beacon_message :=
        "(BEACON - [" +:+ key +:+ "] - END (Elapsed time N/A s)) " +:+ message in
      info beacon_message args kwargs st
  | Some start_time =>
      let '(now, st) := time_time st in
      let elapsed_time := float_sub now start_time in
      let beacon_message :=
        "(BEACON - [" +:+ key +:+ "] - END (Elapsed time "
        +:+ format_2f elapsed_time +:+ " s)) " +:+ message +:+ " " in
      info beacon_message args kwargs st
  end.
End Facade.

(** ** Python's [float] as IEEE binary64 *)

(** [n / d] rounded to the nearest integer, ties to the even one ([0 < d]). *)
Definition round_half_even (n d : Z) : Z :=
  let q := n / d in
  let r := n mod d in
  if 2 * r <? d then q
  else if d <? 2 * r then q + 1
  else if Z.even q then q else q + 1.

Definition decimal (n : Z) : string := NilZero.string_of_uint (N.to_uint (Z.to_N n)).

Definition two_digits (n : Z) : string :=
  if n <? 10 then "0" +:+ decimal n else decimal n.

(** [f"{x:.2f}"]: the exact binary value, correctly rounded to hundredths. *)
Definition float_format_2f (x : float) : string :=
  match Prim2SF x with
  | S754_nan => "nan"
  | S754_infinity s => if s then "-inf" else "inf"
  | S754_zero s => if s then "-0.00" else "0.00"
  | S754_finite s m e =>
      let hundredths :=
        if 0 <=? e then Z.pos m * 100 * 2 ^ e
        else round_half_even (Z.pos m * 100) (2 ^ (- e)) in
      (if s then "-" else "") +:+ decimal (hundredths / 100) +:+ "."
      +:+ two_digits (hundredths mod 100)
  end.

#[export] Instance float_PyFloat : PyFloat float :=
  {| float_sub := PrimFloat.sub; format_2f := float_format_2f |}.

(** ** Reading results *)

(** The value a computation returned, if it did not raise. *)
Definition returned {A} (r : PyResult A * World) : option A :=
  match r.1 with
  | Returned a => Some a
  | Raised _ => None
  end.

(** The exception a computation raised, if any. *)
Definition raised {A} (r : PyResult A * World) : option Exn :=
  match r.1 with
  | Returned _ => None
  | Raised e => Some e
  end.

(** The call a channel receives from the instance of [st]. *)
Definition received {T} (st : State T) (level : Level) (exc_info : bool)
    (text : string) (args : Args) (kwargs : Kwargs) : LogCall :=
  {| call_logger := logger (self st); call_level := level; call_exc_info := exc_info;
     call_msg := text; call_args := args; call_kwargs := kwargs |}.

(** The first failure inside the [try] block of the cloud sink. *)
Definition cloud_sink_failure (env : Env) (name : string) : option Exn :=
  match Client_raises env with
  | Some e => Some e
  | None => CloudLoggingHandler_raises env name
  end.

(** ** Scenarios of the test suites *)

(** [test_beacon_timer_logging]: [time.time] is patched to give [1000.0],
    then [1002.5] for ever. *)
Definition beacon_test : State float :=
  {| self := {| logger := "test_logger"; _prefix := "beacon-test"; _start_times := ∅ |};
     world := fresh_world;
     clock := {| readings := λ n, match n with O => 1000.0 | S _ => 1002.5 end%float;
                 reads := 0 |} |}.

(** The same instance once [log_start("task-1", "Starting the task.")] ran. *)
Definition beacon_started : State float :=
  log_start "task-1" "Starting the task." [] [] beacon_test.

(** Surroundings without the cloud library, in which the log file can be
    opened. *)
Definition plain_env : Env :=
  {| _GOOGLE_CLOUD_LOGGING_AVAILABLE := false;
     environ_LOGGING_FILE_PATH := None;
     Client_raises := None;
     CloudLoggingHandler_raises := λ _, None;
     RotatingFileHandler_raises := λ _ _ _, None |}.

(** Surroundings in which the cloud client has no credentials and the log
    file cannot be opened. *)
Definition hostile_env : Env :=
  {| _GOOGLE_CLOUD_LOGGING_AVAILABLE := true;
     environ_LOGGING_FILE_PATH := Some "/var/log/app.log";
     Client_raises :=
       Some {| exc_type := "DefaultCredentialsError"; exc_str := "no credentials" |};
     CloudLoggingHandler_raises := λ _, None;
     RotatingFileHandler_raises :=
       λ _ _ _, Some {| exc_type := "PermissionError"; exc_str := "Permission denied" |} |}.

(** The world [setup_logging("first_config_logger", enable_gcloud_logging=False)]
    leaves behind on a fresh process. *)
Definition configured_world : World :=
  (setup_logging plain_env "first_config_logger" None false fresh_world).2.

(** ** What the first call is expected to assemble *)

(** The cloud sink: present iff it was requested, the library is available
    and both constructors succeeded. *)
Definition cloud_sink (env : Env) (enable_gcloud_logging : bool) (name : string)
  : list Handler :=
  if enable_gcloud_logging && _GOOGLE_CLOUD_LOGGING_AVAILABLE env then
    match cloud_sink_failure env name with
    | None => [CloudLoggingHandler name]
    | Some _ => []
    end
  else [].

(** The line printed when a requested cloud sink is left out. *)
Definition cloud_warning (env : Env) (enable_gcloud_logging : bool) (name : string)
  : list string :=
  if enable_gcloud_logging then
    if _GOOGLE_CLOUD_LOGGING_AVAILABLE env then
      match cloud_sink_failure env name with
      | None => []
      | Some e =>
          ["Warning: Could not initialize Google Cloud Logging. Functionality disabled: "
           +:+ exc_str e]
      end
    else ["Warning: Google Cloud Logging requested but library is not available or failed to import."]
  else [].

(** The rotating-file sink: present iff its constructor succeeded. *)
Definition file_sink (env : Env) : list Handler :=
  match RotatingFileHandler_raises env (LOGGING_FILE_PATH env) (1024 * 1024 * 100) 5 with
  | None => [RotatingFileHandler (LOGGING_FILE_PATH env) (1024 * 1024 * 100) 5]
  | Some _ => []
  end.

(** The line printed when the file sink is left out. *)
Definition file_warning (env : Env) : list string :=
  match RotatingFileHandler_raises env (LOGGING_FILE_PATH env) (1024 * 1024 * 100) 5 with
  | None => []
  | Some e => ["Warning: Could not initialize file logging: " +:+ exc_str e]
  end.

(** ** Loading the module *)

(** What [import google.cloud.logging] (with its handler class) does when
    the module is loaded: it succeeds, raises an [ImportError], or raises
    another [Exception]. *)
Inductive ImportOutcome :=
| Imported
| RaisesImportError
| RaisesOther (e : Exn).

(** The guarded import at the top of [logger.py]; the result is the value
    given to [_GOOGLE_CLOUD_LOGGING_AVAILABLE]. *)
Definition import_google_cloud_logging (outcome : ImportOutcome) : PyM bool :=
  match outcome with
  | Imported => ret true
  | RaisesImportError =>
      print "Warning: google-cloud-logging not installed. Google Cloud Logging functionality will be disabled.";;;
      ret false
  | RaisesOther e =>
      print ("Warning: Failed to import google.cloud.logging: " +:+ exc_str e
             +:+ ". Google Cloud Logging functionality will be disabled.");;;
      ret false
  end.

(** The module body: the guarded import, [LOGGING_FILE_PATH] read from the
    environment, and [_logging_configured = False].  The result is the
    module as [setup_logging] sees it, in the given surroundings. *)
Definition load_module (outcome : ImportOutcome) (surroundings : Env) : PyM Env :=
  available <- import_google_cloud_logging outcome;;
  set_logging_configured false;;;
  ret {| _GOOGLE_CLOUD_LOGGING_AVAILABLE := available;
         environ_LOGGING_FILE_PATH := environ_LOGGING_FILE_PATH surroundings;
         Client_raises := Client_raises surroundings;
         CloudLoggingHandler_raises := CloudLoggingHandler_raises surroundings;
         RotatingFileHandler_raises := RotatingFileHandler_raises surroundings |}.

(** The same surroundings with other outcomes for the two cloud
    constructors. *)
Definition with_cloud_outcomes (env : Env) (client : option Exn)
    (handler : string → option Exn) : Env :=
  {| _GOOGLE_CLOUD_LOGGING_AVAILABLE := _GOOGLE_CLOUD_LOGGING_AVAILABLE env;
     environ_LOGGING_FILE_PATH := environ_LOGGING_FILE_PATH env;
     Client_raises := client;
     CloudLoggingHandler_raises := handler;
     RotatingFileHandler_raises := RotatingFileHandler_raises env |}.

(** ** Programs over an instance *)

(** One call of a method of [PrefixedLogger] by its owner. *)
Inductive Op :=
| op_debug (message : string) (args : Args) (kwargs : Kwargs)
| op_info (message : string) (args : Args) (kwargs : Kwargs)
| op_warning (message : string) (args : Args) (kwargs : Kwargs)
| op_error (message : string) (args : Args) (kwargs : Kwargs)
| op_critical (message : string) (args : Args) (kwargs : Kwargs)
| op_exception (message : string) (args : Args) (kwargs : Kwargs)
| op_update_prefix (prefix : option string)
| op_log_start (key message : string) (args : Args) (kwargs : Kwargs)
| op_log_end (key message : string) (args : Args) (kwargs : Kwargs).

(** Whether the call starts or ends the timer of [k]. *)
Definition touches (k : string) (op : Op) : bool :=
  match op with
  | op_log_start key _ _ _ | op_log_end key _ _ _ => bool_decide (key = k)
  | _ => false
  end.

Section Programs.
Context {T : Type} `{PyFloat T}.

Definition step (st : State T) (op : Op) : State T :=
  match op with
  | op_debug message args kwargs => debug message args kwargs st
  | op_info message args kwargs => info message args kwargs st
  | op_warning message args kwargs => warning message args kwargs st
  | op_error message args kwargs => error message args kwargs st
  | op_critical message args kwargs => critical message args kwargs st
  | op_exception message args kwargs => exception message args kwargs st
  | op_update_prefix prefix => update_prefix prefix st
  | op_log_start key message args kwargs => log_start key message args kwargs st
  | op_log_end key message args kwargs => log_end key message args kwargs st
  end.

(** The calls of a program, one after the other. *)
Definition run (ops : list Op) (st : State T) : State T := foldl step st ops.
End Programs.

(** [st'] is [st] after [n] calls of the facade, as far as the
    surroundings of the instance can tell: the process configuration, the
    channel and the clock source are the same, at most [n] readings were
    taken, and at most [2 * n] calls were added, all on the channel of the
    instance. *)
Definition facade_frame {T} (n : nat) (st st' : State T) : Prop :=
  _logging_configured (world st') = _logging_configured (world st)
  ∧ root_handlers (world st') = root_handlers (world st)
  ∧ root_format (world st') = root_format (world st)
  ∧ root_level (world st') = root_level (world st)
  ∧ loggers (world st') = loggers (world st)
  ∧ stdout (world st') = stdout (world st)
  ∧ logger (self st') = logger (self st)
  ∧ readings (clock st') = readings (clock st)
  ∧ (reads (clock st) ≤ reads (clock st') ≤ reads (clock st) + n)%nat
  ∧ ∃ new,
      calls (world st') = calls (world st) ++ new
      ∧ (length new ≤ 2 * n)%nat
      ∧ Forall (λ c, call_logger c = logger (self st)) new.

(** ** Calls into the module *)

(** One call of the public interface of the module, in the surroundings of
    that moment; the result is dropped. *)
Inductive ApiCall :=
| api_setup_logging (env : Env) (logger_name : option string)
    (cloud_logger_name : option (option string))
    (enable_gcloud_logging : option bool) (extra : Kwargs)
| api_get_prefixed_logger (env : Env) (logger_name : string)
    (prefix : option (option string)) (cloud_logger_name : option (option string))
    (enable_gcloud_logging : option bool) (extra : Kwargs)
| api_PrefixedLogger (logger_name : string) (prefix : option string).

Definition api_step (T : Type) (w : World) (c : ApiCall) : World :=
  match c with
  | api_setup_logging env logger_name cloud_logger_name enable_gcloud_logging extra =>
      (call_setup_logging env logger_name cloud_logger_name enable_gcloud_logging extra w).2
  | api_get_prefixed_logger env logger_name prefix cloud_logger_name
      enable_gcloud_logging extra =>
      (call_get_prefixed_logger (T:=T) env logger_name prefix cloud_logger_name
         enable_gcloud_logging extra w).2
  | api_PrefixedLogger logger_name prefix => (__init__ (T:=T) logger_name prefix w).2
  end.

(** Surroundings in which the log file cannot be opened. *)
Definition readonly_env : Env :=
  {| _GOOGLE_CLOUD_LOGGING_AVAILABLE := false;
     environ_LOGGING_FILE_PATH := None;
     Client_raises := None;
     CloudLoggingHandler_raises := λ _, None;
     RotatingFileHandler_raises :=
       λ _ _ _, Some {| exc_type := "PermissionError"; exc_str := "Permission denied" |} |}.

(** Surroundings in which the cloud library is installed and every sink can
    be built. *)
Definition cloud_env : Env :=
  {| _GOOGLE_CLOUD_LOGGING_AVAILABLE := true;
     environ_LOGGING_FILE_PATH := Some "/var/log/app.log";
     Client_raises := None;
     CloudLoggingHandler_raises := λ _, None;
     RotatingFileHandler_raises := λ _ _ _, None |}.

(** * Properties *)

(** ** Helper facts *)

Lemma getLogger_returns (name : string) (w : World) :
  ∃ channel, returned (getLogger name w) = Some channel.
Proof. unfold getLogger, returned. case_decide; simpl; eauto. Qed.

Lemma getLogger_frame (name : string) (w : World) :
  let w' := (getLogger name w).2 in
  _logging_configured w' = _logging_configured w
  ∧ root_handlers w' = root_handlers w
  ∧ root_format w' = root_format w
  ∧ root_level w' = root_level w
  ∧ stdout w' = stdout w
  ∧ calls w' = calls w.
Proof. unfold getLogger. case_decide; simpl; auto 10. Qed.

Section FacadeProperties.
Context {T : Type} `{PyFloat T}.
Implicit Types (st : State T) (k key message : string) (args : Args) (kwargs : Kwargs).

(** C1: each of [debug], [info], [warning], [error], [critical] and
    [exception] hands the channel exactly one call, at its own severity
    ([exception] at ERROR with the exception attached), whose text is
    ["[P] M"] for the instance's current prefix [P], with the positional and
    keyword arguments as given; a constructor given no prefix or the empty
    prefix yields [P = "no-prefix"], any other prefix is kept. *)
Theorem leveled_emission_prefixes_and_forwards st (M : string) args kwargs :
  let P := _prefix (self st) in
  let text := "[" +:+ P +:+ "] " +:+ M in
  calls (world (debug M args kwargs st))
    = calls (world st) ++ [received st DEBUG false text args kwargs]
  ∧ calls (world (info M args kwargs st))
    = calls (world st) ++ [received st INFO false text args kwargs]
  ∧ calls (world (warning M args kwargs st))
    = calls (world st) ++ [received st WARNING false text args kwargs]
  ∧ calls (world (error M args kwargs st))
    = calls (world st) ++ [received st ERROR false text args kwargs]
  ∧ calls (world (critical M args kwargs st))
    = calls (world st) ++ [received st CRITICAL false text args kwargs]
  ∧ calls (world (exception M args kwargs st))
    = calls (world st) ++ [received st ERROR true text args kwargs]
  ∧ (∀ name w,
       _prefix <$> returned (__init__ (T:=T) name None w) = Some "no-prefix"
       ∧ _prefix <$> returned (__init__ (T:=T) name (Some "") w) = Some "no-prefix"
       ∧ ∀ a p, _prefix <$> returned (__init__ (T:=T) name (Some (String a p)) w)
                = Some (String a p)).
Proof.
  repeat split; try reflexivity;
    unfold __init__, bind, getLogger, returned; case_decide; reflexivity.
Qed.

(** C6: [update_prefix(new_prefix)] sets the prefix to [new_prefix], or to
    ["no-prefix"] when it is unset or empty; the channel, the timer map, the
    process (so every call recorded before) and the clock stay as they
    were, and the next emission, by any of the six operations, carries the
    new prefix behind the calls already recorded. *)
Theorem update_prefix_changes_only_the_prefix st (new_prefix : option string)
    (M : string) args kwargs :
  let st' := update_prefix new_prefix st in
  _prefix (self st') = py_or new_prefix "no-prefix"
  ∧ _prefix (self (update_prefix None st)) = "no-prefix"
  ∧ _prefix (self (update_prefix (Some "") st)) = "no-prefix"
  ∧ (∀ a p, _prefix (self (update_prefix (Some (String a p)) st)) = String a p)
  ∧ logger (self st') = logger (self st)
  ∧ _start_times (self st') = _start_times (self st)
  ∧ world st' = world st
  ∧ clock st' = clock st
  ∧ (∀ method,
       world (forward method M args kwargs st')
       = method (logger (self st)) ("[" +:+ py_or new_prefix "no-prefix" +:+ "] " +:+ M)
           args kwargs (world st))
  ∧ calls (world (info M args kwargs st'))
    = calls (world st)
      ++ [received st INFO false ("[" +:+ py_or new_prefix "no-prefix" +:+ "] " +:+ M)
            args kwargs].
Proof. repeat split; reflexivity. Qed.

(** Both branches of [log_end], as equations on the calls recorded, the
    timer map and the clock. *)
Lemma log_end_absent st k message args kwargs :
  _start_times (self st) !! k = None →
  let st' := log_end k message args kwargs st in
  calls (world st')
    = calls (world st)
      ++ [received st WARNING false
            ("[" +:+ _prefix (self st) +:+ "] log_end called for key '" +:+ k
             +:+ "' without a corresponding log_start.") [] [];
          received st INFO false
            ("[" +:+ _prefix (self st) +:+ "] (BEACON - [" +:+ k
             +:+ "] - END (Elapsed time N/A s)) " +:+ message) args kwargs]
  ∧ _start_times (self st') = delete k (_start_times (self st))
  ∧ logger (self st') = logger (self st)
  ∧ _prefix (self st') = _prefix (self st)
  ∧ clock st' = clock st.
Proof.
  intros Hk. unfold log_end. rewrite Hk. simpl.
  rewrite <- app_assoc. repeat split.
Qed.

Lemma log_end_present st k message args kwargs (start : T) :
  _start_times (self st) !! k = Some start →
  let st' := log_end k message args kwargs st in
  let now := readings (clock st) (reads (clock st)) in
  calls (world st')
    = calls (world st)
      ++ [received st INFO false
            ("[" +:+ _prefix (self st) +:+ "] (BEACON - [" +:+ k
             +:+ "] - END (Elapsed time " +:+ format_2f (float_sub now start)
             +:+ " s)) " +:+ message +:+ " ") args kwargs]
  ∧ _start_times (self st') = delete k (_start_times (self st))
  ∧ logger (self st') = logger (self st)
  ∧ _prefix (self st') = _prefix (self st)
  ∧ readings (clock st') = readings (clock st)
  ∧ reads (clock st') = S (reads (clock st)).
Proof. intros Hk. unfold log_end. rewrite Hk. simpl. repeat split. Qed.

Lemma log_start_effect st k message args kwargs :
  let st' := log_start k message args kwargs st in
  let now := readings (clock st) (reads (clock st)) in
  calls (world st')
    = calls (world st)
      ++ [received st INFO false
            ("[" +:+ _prefix (self st) +:+ "] (BEACON - [" +:+ k
             +:+ "] - START) " +:+ message) args kwargs]
  ∧ _start_times (self st') = <[k := now]> (_start_times (self st))
  ∧ logger (self st') = logger (self st)
  ∧ _prefix (self st') = _prefix (self st)
  ∧ readings (clock st') = readings (clock st)
  ∧ reads (clock st') = S (reads (clock st)).
Proof. repeat split. Qed.

(** C10: after [log_end(k, m)] the key [k] is not in the timer map, whether
    or not it was there before; a second [log_end] for [k] right after
    takes the missing-key path: a warning, then the END beacon with [N/A],
    and no reading of the clock. *)
Theorem log_end_clears_the_key st k (m1 m2 : string) (a1 a2 : Args) (kw1 kw2 : Kwargs) :
  let st1 := log_end k m1 a1 kw1 st in
  let st2 := log_end k m2 a2 kw2 st1 in
  _start_times (self st1) !! k = None
  ∧ _start_times (self st2) !! k = None
  ∧ calls (world st2)
    = calls (world st1)
      ++ [received st1 WARNING false
            ("[" +:+ _prefix (self st1) +:+ "] log_end called for key '" +:+ k
             +:+ "' without a corresponding log_start.") [] [];
          received st1 INFO false
            ("[" +:+ _prefix (self st1) +:+ "] (BEACON - [" +:+ k
             +:+ "] - END (Elapsed time N/A s)) " +:+ m2) a2 kw2]
  ∧ clock st2 = clock st1.
Proof.
  intros st1 st2.
  assert (Hgone : _start_times (self st1) !! k = None).
  { subst st1. destruct (_start_times (self st) !! k) as [start|] eqn:Hk.
    - destruct (log_end_present st k m1 a1 kw1 start Hk) as (_ & -> & _).
      apply lookup_delete_eq.
    - destruct (log_end_absent st k m1 a1 kw1 Hk) as (_ & -> & _).
      apply lookup_delete_eq. }
  destruct (log_end_absent st1 k m2 a2 kw2 Hgone) as (Hcalls & Hmap & _ & _ & Hclock).
  repeat split; [exact Hgone | | exact Hcalls | exact Hclock].
  subst st2. rewrite Hmap. apply lookup_delete_eq.
Qed.

(** C5: two [log_start] calls for the same key with no [log_end] between
    them leave the second timestamp in the timer map, and the [log_end]
    that follows reports the time elapsed since the second one; the three
    calls emit three INFO records (START, START, END) and no warning. *)
Theorem last_start_wins st k (m1 m2 m3 : string) (a1 a2 a3 : Args) (kw1 kw2 kw3 : Kwargs) :
  let st1 := log_start k m1 a1 kw1 st in
  let st2 := log_start k m2 a2 kw2 st1 in
  let st3 := log_end k m3 a3 kw3 st2 in
  let t1 := readings (clock st) (reads (clock st)) in
  let t2 := readings (clock st) (S (reads (clock st))) in
  let t3 := readings (clock st) (S (S (reads (clock st)))) in
  let P := _prefix (self st) in
  _start_times (self st1) !! k = Some t1
  ∧ _start_times (self st2) !! k = Some t2
  ∧ calls (world st2)
    = calls (world st)
      ++ [received st INFO false
            ("[" +:+ P +:+ "] (BEACON - [" +:+ k +:+ "] - START) " +:+ m1) a1 kw1;
          received st INFO false
            ("[" +:+ P +:+ "] (BEACON - [" +:+ k +:+ "] - START) " +:+ m2) a2 kw2]
  ∧ calls (world st3)
    = calls (world st2)
      ++ [received st INFO false
            ("[" +:+ P +:+ "] (BEACON - [" +:+ k +:+ "] - END (Elapsed time "
             +:+ format_2f (float_sub t3 t2) +:+ " s)) " +:+ m3 +:+ " ") a3 kw3]
  ∧ Forall (λ c, call_level c ≠ WARNING)
      (drop (length (calls (world st))) (calls (world st3))).
Proof.
  intros st1 st2 st3 t1 t2 t3 P.
  assert (H1 : _start_times (self st1) !! k = Some t1) by apply lookup_insert_eq.
  assert (H2 : _start_times (self st2) !! k = Some t2) by apply lookup_insert_eq.
  assert (Hc2 : calls (world st2)
                = calls (world st)
                  ++ [received st INFO false
                        ("[" +:+ P +:+ "] (BEACON - [" +:+ k +:+ "] - START) " +:+ m1) a1 kw1;
                      received st INFO false
                        ("[" +:+ P +:+ "] (BEACON - [" +:+ k +:+ "] - START) " +:+ m2) a2 kw2]).
  { subst st2 st1. simpl. by rewrite <- app_assoc. }
  destruct (log_end_present st2 k m3 a3 kw3 t2 H2) as (Hc3 & _).
  fold st3 in Hc3. change (readings (clock st2) (reads (clock st2))) with t3 in Hc3.
  change (_prefix (self st2)) with P in Hc3.
  repeat split; [exact H1 | exact H2 | exact Hc2 | exact Hc3 |].
  rewrite Hc3, Hc2, <- app_assoc, drop_app_length.
  repeat constructor; discriminate.
Qed.

(** C2 (amended): when [k] is in the timer map with start timestamp
    [start], [log_end(k, message)] removes [k] and nothing else from the
    map, reads the clock once, and emits exactly one INFO record, whose
    text is the instance's prefix in brackets followed by
    ["(BEACON - [k] - END (Elapsed time <now - start, as .2f> s)) message "],
    trailing space included. *)
Theorem log_end_reports_elapsed_time st k message args kwargs (start : T) :
  _start_times (self st) !! k = Some start →
  let st' := log_end k message args kwargs st in
  let now := readings (clock st) (reads (clock st)) in
  let elapsed_time := float_sub now start in
  _start_times (self st') !! k = None
  ∧ (∀ k', k' ≠ k → _start_times (self st') !! k' = _start_times (self st) !! k')
  ∧ reads (clock st') = S (reads (clock st))
  ∧ calls (world st')
    = calls (world st)
      ++ [received st INFO false
            ("[" +:+ _prefix (self st) +:+ "] "
             +:+ "(BEACON - [" +:+ k +:+ "] - END (Elapsed time "
             +:+ format_2f elapsed_time +:+ " s)) " +:+ message +:+ " ")
            args kwargs].
Proof.
  intros Hk st' now elapsed_time.
  destruct (log_end_present st k message args kwargs start Hk)
    as (Hcalls & Hmap & _ & _ & _ & Hreads).
  fold st' in Hcalls, Hmap, Hreads.
  repeat split; [| | exact Hreads | exact Hcalls].
  - rewrite Hmap. apply lookup_delete_eq.
  - intros k' Hne. rewrite Hmap. by apply lookup_delete_ne.
Qed.

(** C3 (amended): when [k] is not in the timer map, [log_end(k, message)]
    (a total state transformer: nothing is raised) emits exactly two
    records in this order: a WARNING whose text is the instance's prefix in
    brackets followed by
    ["log_end called for key 'k' without a corresponding log_start."], then
    an INFO END beacon, prefixed the same way, with the elapsed time
    rendered as [N/A]; the clock is not read and [k] stays absent. *)
Theorem log_end_without_start_warns st k message args kwargs :
  _start_times (self st) !! k = None →
  let st' := log_end k message args kwargs st in
  calls (world st')
    = calls (world st)
      ++ [received st WARNING false
            ("[" +:+ _prefix (self st) +:+ "] "
             +:+ "log_end called for key '" +:+ k
             +:+ "' without a corresponding log_start.") [] [];
          received st INFO false
            ("[" +:+ _prefix (self st) +:+ "] "
             +:+ "(BEACON - [" +:+ k +:+ "] - END (Elapsed time N/A s)) " +:+ message)
            args kwargs]
  ∧ _start_times (self st') !! k = None
  ∧ clock st' = clock st.
Proof.
  intros Hk st'.
  destruct (log_end_absent st k message args kwargs Hk) as (Hcalls & Hmap & _ & _ & Hclock).
  fold st' in Hcalls, Hmap, Hclock.
  repeat split; [exact Hcalls | | exact Hclock].
  rewrite Hmap. apply lookup_delete_eq.
Qed.
End FacadeProperties.

(** C2, witness: [test_beacon_timer_logging], where the start was read at
    [1000.0] and the end at [1002.5]. *)
Lemma log_end_reports_elapsed_time_witness :
  _start_times (self beacon_started) !! "task-1" = Some 1000.0%float
  ∧ call_msg <$> calls (world (log_end "task-1" "Finished the task." [] [] beacon_started))
    = ["[beacon-test] (BEACON - [task-1] - START) Starting the task.";
       "[beacon-test] (BEACON - [task-1] - END (Elapsed time 2.50 s)) Finished the task. "].
Proof.
  assert (Hk : _start_times (self beacon_started) !! "task-1" = Some 1000.0%float)
    by (vm_compute; reflexivity).
  split; [exact Hk|].
  destruct (log_end_reports_elapsed_time beacon_started "task-1" "Finished the task."
              [] [] _ Hk) as (_ & _ & _ & ->).
  vm_compute. reflexivity.
Defined.

(** C2, as stated, fails: the record that reaches the channel starts with
    the prefix, so its text is not the bare beacon text. *)
Lemma log_end_record_text_counterexample :
  _start_times (self beacon_started) !! "task-1" = Some 1000.0%float
  ∧ ¬ ∃ r,
        calls (world (log_end "task-1" "Finished the task." [] [] beacon_started))
          = calls (world beacon_started) ++ [r]
        ∧ call_level r = INFO
        ∧ call_msg r
          = "(BEACON - [task-1] - END (Elapsed time 2.50 s)) Finished the task. ".
Proof.
  split; [vm_compute; reflexivity|].
  intros (r & Hcalls & _ & Hmsg).
  vm_compute in Hcalls. injection Hcalls as <-.
  discriminate Hmsg.
Qed.

(** C3, witness: [test_beacon_log_end_without_start]. *)
Lemma log_end_without_start_warns_witness :
  _start_times (self beacon_test) !! "dangling-task" = None
  ∧ (λ c, (call_level c, call_msg c))
      <$> calls (world (log_end "dangling-task" "This task never started." [] [] beacon_test))
    = [(WARNING, "[beacon-test] log_end called for key 'dangling-task' without a corresponding log_start.");
       (INFO, "[beacon-test] (BEACON - [dangling-task] - END (Elapsed time N/A s)) This task never started.")].
Proof.
  assert (Hk : _start_times (self beacon_test) !! "dangling-task" = None)
    by (vm_compute; reflexivity).
  split; [exact Hk|].
  destruct (log_end_without_start_warns beacon_test "dangling-task"
              "This task never started." [] [] Hk) as (-> & _).
  vm_compute. reflexivity.
Defined.

(** C3, as stated, fails: the warning record carries the prefix before the
    text the claim gives. *)
Lemma log_end_warning_text_counterexample :
  _start_times (self beacon_test) !! "dangling-task" = None
  ∧ ¬ ∃ r1 r2,
        calls (world (log_end "dangling-task" "This task never started." [] [] beacon_test))
          = calls (world beacon_test) ++ [r1; r2]
        ∧ call_level r1 = WARNING
        ∧ call_msg r1
          = "log_end called for key 'dangling-task' without a corresponding log_start."
        ∧ call_level r2 = INFO.
Proof.
  split; [vm_compute; reflexivity|].
  intros (r1 & r2 & Hcalls & _ & Hmsg & _).
  vm_compute in Hcalls. injection Hcalls as <- <-.
  discriminate Hmsg.
Qed.

(** ** The initializer *)

(** Runs [setup_logging] symbolically: every branch on the surroundings is
    taken apart and the monad is computed away. *)
Ltac run_setup env :=
  unfold setup_logging, try_except, bind, ret, raise,
    construct, Client, print, basicConfig, set_logging_configured, getLogger,
    cloud_sink, cloud_warning, file_sink, file_warning,
    cloud_sink_failure, returned, raised;
  repeat match goal with
         | |- context [_GOOGLE_CLOUD_LOGGING_AVAILABLE env] =>
             destruct (_GOOGLE_CLOUD_LOGGING_AVAILABLE env)
         | |- context [Client_raises env] => destruct (Client_raises env)
         | |- context [CloudLoggingHandler_raises env ?n] =>
             destruct (CloudLoggingHandler_raises env n)
         | |- context [RotatingFileHandler_raises env ?p ?m ?b] =>
             destruct (RotatingFileHandler_raises env p m b)
         | |- context [decide ?P] => destruct (decide P)
         | _ => progress simpl
         end.

Lemma setup_logging_configured (env : Env) (logger_name : string)
    (cloud_logger_name : option string) (enable_gcloud_logging : bool) (w : World) :
  _logging_configured w = true →
  setup_logging env logger_name cloud_logger_name enable_gcloud_logging w
  = getLogger logger_name w.
Proof. intros Hflag. unfold setup_logging. by rewrite Hflag. Qed.

Lemma setup_logging_first_call (env : Env) (logger_name : string)
    (cloud_logger_name : option string) (enable_gcloud_logging : bool) (w : World) :
  _logging_configured w = false →
  let name := py_or cloud_logger_name logger_name in
  let r := setup_logging env logger_name cloud_logger_name enable_gcloud_logging w in
  raised r = None
  ∧ is_Some (returned r)
  ∧ _logging_configured r.2 = true
  ∧ root_handlers r.2
    = [StreamHandler] ++ cloud_sink env enable_gcloud_logging name ++ file_sink env
  ∧ stdout r.2
    = stdout w ++ cloud_warning env enable_gcloud_logging name ++ file_warning env
  ∧ root_format r.2 = Some "%(asctime)s - %(levelname)s - %(message)s"
  ∧ root_level r.2 = INFO
  ∧ calls r.2 = calls w.
Proof.
  intros Hflag name r. subst r name.
  destruct enable_gcloud_logging;
    run_setup env; rewrite ?Hflag; run_setup env;
    rewrite <- ?app_assoc, ?app_nil_r; eauto 10.
Qed.

(** C9: whatever the cloud and file constructors do, [setup_logging] returns
    a channel and raises nothing.  On a later call nothing is assembled or
    printed.  On the first call the root logger receives the console sink
    first, then the cloud sink if it was requested, available and built, then
    the file sink if it was built; each optional sink that failed is left
    out and exactly one warning line is printed for it. *)
Theorem setup_logging_tolerates_sink_failures (env : Env)
    (logger_name : string) (cloud_logger_name : option string)
    (enable_gcloud_logging : bool) (w : World) :
  let name := py_or cloud_logger_name logger_name in
  let r := setup_logging env logger_name cloud_logger_name enable_gcloud_logging w in
  raised r = None
  ∧ is_Some (returned r)
  ∧ if _logging_configured w
    then root_handlers r.2 = root_handlers w ∧ stdout r.2 = stdout w
    else root_handlers r.2
         = [StreamHandler] ++ cloud_sink env enable_gcloud_logging name ++ file_sink env
         ∧ stdout r.2
           = stdout w ++ cloud_warning env enable_gcloud_logging name ++ file_warning env.
Proof.
  intros name r. subst r.
  destruct (_logging_configured w) eqn:Hflag.
  - rewrite setup_logging_configured by done.
    destruct (getLogger_returns logger_name w) as [channel Hchannel].
    destruct (getLogger_frame logger_name w) as (_ & Hh & _ & _ & Hout & _).
    repeat split; [|by rewrite Hchannel|exact Hh|exact Hout].
    unfold raised. unfold returned in Hchannel.
    by destruct (getLogger logger_name w).1.
  - destruct (setup_logging_first_call env logger_name cloud_logger_name
                enable_gcloud_logging w Hflag) as (? & ? & _ & ? & ? & _).
    auto.
Qed.

(** C9 at work: no credentials for the cloud client and a log file that
    cannot be opened leave the console sink alone, with two warnings. *)
Example setup_logging_in_hostile_surroundings :
  let r := setup_logging hostile_env "app" None true fresh_world in
  returned r = Some "app"
  ∧ root_handlers r.2 = [StreamHandler]
  ∧ stdout r.2
    = ["Warning: Could not initialize Google Cloud Logging. Functionality disabled: no credentials";
       "Warning: Could not initialize file logging: Permission denied"]
  ∧ _logging_configured r.2 = true.
Proof. repeat split. Qed.

(** C4: once [_logging_configured] is true, a call of [setup_logging] with
    any arguments is just [logging.getLogger(logger_name)]: it returns the
    channel of the requested name, prints nothing, and leaves the flag, the
    sinks, the format and the level as they were.  A call turns the flag from
    false to true only together with the installation of the assembled
    sinks (console first), the format and the INFO level; a call that Python
    rejects changes nothing. *)
Theorem setup_logging_first_caller_wins (env : Env)
    (logger_name : string) (cloud_logger_name : option string)
    (enable_gcloud_logging : bool) (w : World) :
  _logging_configured w = true →
  let r := setup_logging env logger_name cloud_logger_name enable_gcloud_logging w in
  r = getLogger logger_name w
  ∧ returned r
    = Some (if decide (logger_name = "" ∨ logger_name = "root") then "root" else logger_name)
  ∧ _logging_configured r.2 = true
  ∧ root_handlers r.2 = root_handlers w
  ∧ root_format r.2 = root_format w
  ∧ root_level r.2 = root_level w
  ∧ stdout r.2 = stdout w
  ∧ calls r.2 = calls w
  ∧ ∀ w0 name cloud enable extra,
      let r0 := call_setup_logging env name cloud enable extra w0 in
      _logging_configured w0 = false →
      (_logging_configured r0.2 = true →
       is_Some (returned r0)
       ∧ (∃ optional, root_handlers r0.2 = StreamHandler :: optional)
       ∧ root_format r0.2 = Some "%(asctime)s - %(levelname)s - %(message)s"
       ∧ root_level r0.2 = INFO)
      ∧ (is_Some (raised r0) → r0.2 = w0).
Proof.
  intros Hflag r. subst r.
  rewrite setup_logging_configured by done.
  destruct (getLogger_frame logger_name w) as (Hf & Hh & Hfmt & Hl & Hout & Hcalls).
  simpl in *.
  split; [done|]. split; [unfold getLogger, returned; by case_decide|].
  split; [congruence|]. do 5 (split; [done|]).
  intros w0 name cloud enable extra Hflag0.
  destruct extra as [|[k v] extra]; simpl.
  - destruct (setup_logging_first_call env (default "cloud_bear_logger" name)
                (default None cloud) (default true enable) w0 Hflag0)
      as (Hraised & Hret & _ & Hsinks & _ & Hformat & Hlevel & _).
    split.
    + intros _. repeat split; [exact Hret | | exact Hformat | exact Hlevel].
      rewrite Hsinks. eauto.
    + intros [e He]. congruence.
  - split; [|done]. unfold raise. simpl. congruence.
Qed.

(** C4, witness: [test_setup_logging_prevents_reconfiguration], the second
    call made with another name and with cloud logging requested. *)
Lemma setup_logging_first_caller_wins_witness :
  _logging_configured configured_world = true
  ∧ root_handlers
      (setup_logging hostile_env "second_config_logger" (Some "cloud") true
         configured_world).2
    = [StreamHandler; RotatingFileHandler "logs.txt" 104857600 5]
  ∧ stdout
      (setup_logging hostile_env "second_config_logger" (Some "cloud") true
         configured_world).2
    = [].
Proof.
  assert (Hflag : _logging_configured configured_world = true) by reflexivity.
  split; [exact Hflag|].
  destruct (setup_logging_first_caller_wins hostile_env "second_config_logger"
              (Some "cloud") true configured_world Hflag)
    as (_ & _ & _ & -> & _ & _ & -> & _).
  split; reflexivity.
Defined.

(** C8: the call of [test_setup_logging_with_custom_file_handler_params] is
    rejected with [TypeError] before the body runs and leaves the process as
    it was; and whatever arguments the signature does accept, a file sink
    installed by the first call has the path of [LOGGING_FILE_PATH],
    [maxBytes = 104857600] and [backupCount = 5]. *)
Theorem setup_logging_file_sink_is_fixed :
  call_setup_logging plain_env (Some "test_custom_logger") None (Some false)
    [("log_file_path", PyStr "custom_log.txt");
     ("log_file_max_bytes", PyInt (5 * 1024 * 1024));
     ("log_file_backup_count", PyInt 3)] fresh_world
  = (Raised {| exc_type := "TypeError";
               exc_str := "setup_logging() got an unexpected keyword argument 'log_file_path'" |},
     fresh_world)
  ∧ (∀ env logger_name cloud_logger_name enable_gcloud_logging w filename maxBytes backupCount,
       _logging_configured w = false →
       RotatingFileHandler filename maxBytes backupCount
         ∈ root_handlers
             (setup_logging env logger_name cloud_logger_name enable_gcloud_logging w).2 →
       filename = LOGGING_FILE_PATH env ∧ maxBytes = 104857600 ∧ backupCount = 5)
  ∧ root_handlers (setup_logging plain_env "test_custom_logger" None false fresh_world).2
    = [StreamHandler; RotatingFileHandler "logs.txt" 104857600 5].
Proof.
  split; [reflexivity|]. split; [|reflexivity].
  intros env logger_name cloud_logger_name enable w filename maxBytes backupCount Hflag.
  destruct (setup_logging_first_call env logger_name cloud_logger_name enable w Hflag)
    as (_ & _ & _ & -> & _).
  rewrite !elem_of_app, list_elem_of_singleton.
  unfold cloud_sink, file_sink.
  intros [Hin | [Hin | Hin]]; [discriminate Hin | |].
  - destruct (_ && _); [|by apply elem_of_nil in Hin].
    destruct (cloud_sink_failure _ _); [by apply elem_of_nil in Hin|].
    apply list_elem_of_singleton in Hin. discriminate Hin.
  - destruct (RotatingFileHandler_raises _ _ _ _); [by apply elem_of_nil in Hin|].
    apply list_elem_of_singleton in Hin. by injection Hin as -> -> ->.
Qed.

(** ** Construction *)

Lemma init_effect {T} (logger_name : string) (prefix : option string) (w : World) :
  let r := __init__ (T:=T) logger_name prefix w in
  (∃ lg, returned r = Some lg
         ∧ _prefix lg = py_or prefix "no-prefix"
         ∧ _start_times lg = ∅)
  ∧ _logging_configured r.2 = _logging_configured w
  ∧ root_handlers r.2 = root_handlers w
  ∧ root_format r.2 = root_format w
  ∧ root_level r.2 = root_level w
  ∧ stdout r.2 = stdout w
  ∧ calls r.2 = calls w.
Proof.
  unfold __init__, bind, ret, getLogger, returned.
  case_decide; simpl; repeat split; eauto.
Qed.



(** ** The test suite of the facade, replayed *)

(** [test_logger_initialization_no_prefix] *)
Example test_logger_initialization_no_prefix :
  _prefix <$> returned (__init__ (T:=float) "no_prefix_test" None fresh_world)
  = Some "no-prefix".
Proof. reflexivity. Qed.

(** [test_update_prefix] *)
Example test_update_prefix :
  let st : State float :=
    {| self := {| logger := "test_logger"; _prefix := "initial-prefix"; _start_times := ∅ |};
       world := fresh_world; clock := clock beacon_test |} in
  call_msg <$> calls (world (info "Second message." [] []
                               (update_prefix (Some "new-prefix")
                                  (info "First message." [] [] st))))
  = ["[initial-prefix] First message."; "[new-prefix] Second message."].
Proof. reflexivity. Qed.

(** [test_beacon_timer_logging] *)
Example test_beacon_timer_logging :
  (λ c, (levelname (call_level c), call_msg c))
    <$> calls (world (log_end "task-1" "Finished the task." [] [] beacon_started))
  = [("INFO", "[beacon-test] (BEACON - [task-1] - START) Starting the task.");
     ("INFO", "[beacon-test] (BEACON - [task-1] - END (Elapsed time 2.50 s)) Finished the task. ")].
Proof. vm_compute. reflexivity. Qed.

(** * Further properties *)

(** ** Programs over an instance *)

Lemma py_or_nonempty (x : option string) (d : string) : d ≠ "" → py_or x d ≠ "".
Proof. intros Hd. unfold py_or. destruct x as [s|]; [case_decide|]; done. Qed.

Section ProgramProperties.
Context {T : Type} `{PyFloat T}.
Implicit Types (st : State T) (k key message : string) (args : Args) (kwargs : Kwargs)
  (op : Op) (ops : list Op).

Lemma run_cons op ops st : run (op :: ops) st = run ops (step st op).
Proof. reflexivity. Qed.

Lemma run_app ops1 ops2 st : run (ops1 ++ ops2) st = run ops2 (run ops1 st).
Proof. apply foldl_app. Qed.

Lemma facade_frame_refl st : facade_frame 0 st st.
Proof.
  unfold facade_frame. repeat split; try lia.
  exists []. rewrite app_nil_r. repeat split; [simpl; lia | constructor].
Qed.

Lemma facade_frame_trans n1 n2 st1 st2 st3 :
  facade_frame n1 st1 st2 → facade_frame n2 st2 st3 → facade_frame (n1 + n2) st1 st3.
Proof.
  intros (F1 & H1 & M1 & L1 & G1 & O1 & C1 & R1 & [N1 N1'] & new1 & E1 & B1 & A1)
         (F2 & H2 & M2 & L2 & G2 & O2 & C2 & R2 & [N2 N2'] & new2 & E2 & B2 & A2).
  unfold facade_frame. repeat split; try congruence; try lia.
  exists (new1 ++ new2). repeat split.
  - by rewrite E2, E1, app_assoc.
  - rewrite length_app. lia.
  - apply Forall_app. split; [done|]. by rewrite <- C1.
Qed.

Lemma forward_frame method_level exc_info message args kwargs st :
  facade_frame 1 st (forward (Logger_call method_level exc_info) message args kwargs st).
Proof.
  unfold facade_frame. simpl. repeat split; try lia.
  eexists [_]. repeat split; [simpl; lia|]. by repeat constructor.
Qed.

Lemma step_frame op st : facade_frame 1 st (step st op).
Proof.
  destruct op; simpl; try apply forward_frame.
  - unfold facade_frame. simpl. repeat split; try lia.
    exists []. rewrite app_nil_r. repeat split; [simpl; lia | constructor].
  - unfold facade_frame, log_start. simpl. repeat split; try lia.
    eexists [_]. repeat split; [simpl; lia|]. by repeat constructor.
  - unfold facade_frame, log_end.
    destruct (_start_times (self st) !! key); simpl; repeat split; try lia.
    + eexists [_]. repeat split; [simpl; lia|]. by repeat constructor.
    + eexists [_; _]. rewrite <- app_assoc. repeat split; [simpl; lia|].
      by repeat constructor.
Qed.

Lemma run_frame ops st : facade_frame (length ops) st (run ops st).
Proof.
  revert st. induction ops as [|op ops IH]; intros st.
  - apply facade_frame_refl.
  - rewrite run_cons. change (length (op :: ops)) with (1 + length ops)%nat.
    eapply facade_frame_trans; [apply step_frame | apply IH].
Qed.

Lemma step_untouched k op st :
  touches k op = false →
  _start_times (self (step st op)) !! k = _start_times (self st) !! k.
Proof.
  destruct op; simpl; try done.
  - intros Hne%bool_decide_eq_false. unfold log_start. simpl.
    by apply lookup_insert_ne.
  - intros Hne%bool_decide_eq_false. unfold log_end.
    destruct (_start_times (self st) !! key); simpl; by apply lookup_delete_ne.
Qed.

Lemma run_untouched k ops st :
  Forall (λ op, touches k op = false) ops →
  _start_times (self (run ops st)) !! k = _start_times (self st) !! k.
Proof.
  revert st. induction ops as [|op ops IH]; intros st Hops; [done|].
  apply Forall_cons in Hops as [Hop Hops].
  rewrite run_cons, IH by done. by apply step_untouched.
Qed.

Lemma step_prefix_nonempty op st :
  _prefix (self st) ≠ "" → _prefix (self (step st op)) ≠ "".
Proof.
  destruct op; simpl; try done.
  - intros _. by apply py_or_nonempty.
  - unfold log_end. by destruct (_start_times (self st) !! key).
Qed.

Lemma run_prefix_nonempty ops st :
  _prefix (self st) ≠ "" → _prefix (self (run ops st)) ≠ "".
Proof.
  revert st. induction ops as [|op ops IH]; intros st Hst; [done|].
  rewrite run_cons. by apply IH, step_prefix_nonempty.
Qed.

(** X1: whatever calls its owner makes, an instance never reconfigures the
    process (flag, sinks, format, level, logger registry, printed output),
    never changes its channel, and only adds calls to those recorded, all of
    them on its own channel: at most two per call, with at most one reading
    of the clock per call. *)
Theorem facade_only_logs_to_its_channel ops st :
  let st' := run ops st in
  _logging_configured (world st') = _logging_configured (world st)
  ∧ root_handlers (world st') = root_handlers (world st)
  ∧ root_format (world st') = root_format (world st)
  ∧ root_level (world st') = root_level (world st)
  ∧ loggers (world st') = loggers (world st)
  ∧ stdout (world st') = stdout (world st)
  ∧ logger (self st') = logger (self st)
  ∧ (reads (clock st) ≤ reads (clock st') ≤ reads (clock st) + length ops)%nat
  ∧ ∃ new,
      calls (world st') = calls (world st) ++ new
      ∧ (length new ≤ 2 * length ops)%nat
      ∧ Forall (λ c, call_logger c = logger (self st)) new.
Proof.
  destruct (run_frame ops st) as (? & ? & ? & ? & ? & ? & ? & _ & ? & ?).
  simpl. auto 10.
Qed.

(** X2: a timer measures from its own start.  After [log_start(k, _)], any
    calls that neither start nor end [k] (other timers, prefix updates,
    logging) leave the start timestamp of [k] in place, and the [log_end(k,
    _)] that follows emits one INFO record, with the prefix current at that
    moment, reporting the reading taken at the end minus the reading taken
    at the start; it takes the key out. *)
Theorem timer_measures_from_its_own_start st k ops
    (m1 m2 : string) (a1 a2 : Args) (kw1 kw2 : Kwargs) :
  Forall (λ op, touches k op = false) ops →
  let st1 := log_start k m1 a1 kw1 st in
  let st2 := run ops st1 in
  let st3 := log_end k m2 a2 kw2 st2 in
  let started := readings (clock st) (reads (clock st)) in
  let ended := readings (clock st) (reads (clock st2)) in
  _start_times (self st2) !! k = Some started
  ∧ calls (world st3)
    = calls (world st2)
      ++ [received st INFO false
            ("[" +:+ _prefix (self st2) +:+ "] (BEACON - [" +:+ k
             +:+ "] - END (Elapsed time " +:+ format_2f (float_sub ended started)
             +:+ " s)) " +:+ m2 +:+ " ") a2 kw2]
  ∧ _start_times (self st3) !! k = None.
Proof.
  intros Hops st1 st2 st3 started ended.
  assert (Hk : _start_times (self st2) !! k = Some started).
  { subst st2. rewrite run_untouched by done. apply lookup_insert_eq. }
  destruct (run_frame ops st1) as (_ & _ & _ & _ & _ & _ & Hch & Hrd & _).
  fold st2 in Hch, Hrd.
  destruct (log_end_present st2 k m2 a2 kw2 started Hk) as (Hcalls & Hmap & _).
  fold st3 in Hcalls, Hmap.
  split; [exact Hk|]. split.
  - rewrite Hcalls. unfold received. rewrite Hch, Hrd. reflexivity.
  - rewrite Hmap. apply lookup_delete_eq.
Qed.

(** X3: [log_start(k, _)] followed at once by [log_end(k, _)] leaves the
    timer map as it was without [k]; when [k] had no timer before, the map
    is exactly restored.  The pair emits a START and an END record, both
    INFO, and reads the clock twice. *)
Theorem start_then_end_restores_timers st k (m1 m2 : string) (a1 a2 : Args)
    (kw1 kw2 : Kwargs) :
  _start_times (self st) !! k = None →
  let st2 := log_end k m2 a2 kw2 (log_start k m1 a1 kw1 st) in
  let t1 := readings (clock st) (reads (clock st)) in
  let t2 := readings (clock st) (S (reads (clock st))) in
  _start_times (self st2) = _start_times (self st)
  ∧ calls (world st2)
    = calls (world st)
      ++ [received st INFO false
            ("[" +:+ _prefix (self st) +:+ "] (BEACON - [" +:+ k +:+ "] - START) " +:+ m1)
            a1 kw1;
          received st INFO false
            ("[" +:+ _prefix (self st) +:+ "] (BEACON - [" +:+ k
             +:+ "] - END (Elapsed time " +:+ format_2f (float_sub t2 t1)
             +:+ " s)) " +:+ m2 +:+ " ") a2 kw2]
  ∧ reads (clock st2) = S (S (reads (clock st))).
Proof.
  intros Hk st2 t1 t2.
  assert (Hin : _start_times (self (log_start k m1 a1 kw1 st)) !! k = Some t1)
    by apply lookup_insert_eq.
  destruct (log_end_present _ k m2 a2 kw2 t1 Hin) as (Hcalls & Hmap & _ & _ & _ & Hreads).
  fold st2 in Hcalls, Hmap, Hreads.
  repeat split.
  - rewrite Hmap. simpl. rewrite delete_insert_eq. by apply delete_id.
  - rewrite Hcalls. simpl. by rewrite <- app_assoc.
  - exact Hreads.
Qed.

(** X4: the prefix of an instance is never empty: the constructor falls
    back to ["no-prefix"], and no sequence of calls, [update_prefix] with any
    argument included, can make it empty. *)
Theorem prefix_is_never_empty (logger_name : string) (prefix : option string)
    (w w' : World) (lg : PrefixedLogger T) (c : Clock T) ops :
  returned (__init__ logger_name prefix w) = Some lg →
  _prefix lg ≠ ""
  ∧ _prefix (self (run ops {| self := lg; world := w'; clock := c |})) ≠ "".
Proof.
  intros Hlg.
  assert (Hne : _prefix lg ≠ "").
  { destruct (init_effect (T:=T) logger_name prefix w) as ((lg' & Hlg' & Hp & _) & _).
    rewrite Hlg in Hlg'. injection Hlg' as <-. rewrite Hp. by apply py_or_nonempty. }
  split; [exact Hne|]. by apply run_prefix_nonempty.
Qed.
End ProgramProperties.

(** ** Paired beacons *)

Section PairedBeacons.
Context {T : Type} `{PyFloat T}.
Implicit Types (st : State T) (k : string) (ks : list string).

Lemma starts_effect (m_start : string → string) ks st :
  let st' := run ((λ k, op_log_start k (m_start k) [] []) <$> ks) st in
  (∃ new, calls (world st') = calls (world st) ++ new
          ∧ length new = length ks
          ∧ Forall (λ c, call_level c = INFO) new)
  ∧ (∀ k, k ∈ ks → is_Some (_start_times (self st') !! k))
  ∧ (∀ k, k ∉ ks → _start_times (self st') !! k = _start_times (self st) !! k).
Proof.
  revert st. induction ks as [|k0 ks IH]; intros st; cbv zeta.
  - split; [|split]; [|by intros k ?%elem_of_nil|done].
    exists []. by rewrite app_nil_r.
  - rewrite fmap_cons, run_cons.
    destruct (IH (step st (op_log_start k0 (m_start k0) [] [])))
      as ((new & Hcalls & Hlen & Hinfo) & Hin & Hout).
    split; [|split].
    + eexists (_ :: new). rewrite Hcalls. simpl. rewrite <- app_assoc. simpl.
      repeat split; [by rewrite Hlen|]. by constructor.
    + intros k [->|Hk]%elem_of_cons; [|by apply Hin].
      destruct (decide (k0 ∈ ks)) as [Hk|Hk]; [by apply Hin|].
      rewrite Hout by done. simpl. unfold log_start. simpl.
      rewrite lookup_insert_eq. by eexists.
    + intros k [Hne Hk]%not_elem_of_cons. rewrite Hout by done.
      simpl. unfold log_start. simpl. by apply lookup_insert_ne.
Qed.

Lemma ends_effect (m_end : string → string) ks st :
  NoDup ks →
  (∀ k, k ∈ ks → is_Some (_start_times (self st) !! k)) →
  let st' := run ((λ k, op_log_end k (m_end k) [] []) <$> ks) st in
  (∃ new, calls (world st') = calls (world st) ++ new
          ∧ length new = length ks
          ∧ Forall (λ c, call_level c = INFO) new)
  ∧ (∀ k, k ∈ ks → _start_times (self st') !! k = None)
  ∧ (∀ k, k ∉ ks → _start_times (self st') !! k = _start_times (self st) !! k).
Proof.
  revert st. induction ks as [|k0 ks IH]; intros st Hnodup Hall; cbv zeta.
  - split; [|split]; [|by intros k ?%elem_of_nil|done].
    exists []. by rewrite app_nil_r.
  - apply NoDup_cons in Hnodup as [Hk0 Hnodup].
    destruct (Hall k0) as [start Hstart]; [by left|].
    destruct (log_end_present st k0 (m_end k0) [] [] start Hstart)
      as (Hc1 & Hm1 & _).
    rewrite fmap_cons, run_cons.
    change (step st (op_log_end k0 (m_end k0) [] []))
      with (log_end k0 (m_end k0) [] [] st).
    set (st1 := log_end k0 (m_end k0) [] [] st) in *.
    destruct (IH st1 Hnodup) as ((new & Hcalls & Hlen & Hinfo) & Hin & Hout).
    { intros k Hk. rewrite Hm1, lookup_delete_ne; [apply Hall; by right|].
      intros ->. done. }
    split; [|split].
    + eexists (_ :: new). rewrite Hcalls, Hc1, <- app_assoc. simpl.
      repeat split; [by rewrite Hlen|]. by constructor.
    + intros k [->|Hk]%elem_of_cons; [|by apply Hin].
      rewrite Hout, Hm1 by done. apply lookup_delete_eq.
    + intros k [Hne Hk]%not_elem_of_cons.
      rewrite Hout, Hm1 by done. by apply lookup_delete_ne.
Qed.

(** X5: beacons that are properly paired never warn.  Starting a timer for
    each of a list of distinct keys and then ending each of them once, in
    any order, emits [2 * n] records, all INFO (so no warning), leaves none
    of these keys in the timer map, and leaves every other key as it was. *)
Theorem paired_beacons_never_warn st (ks ks' : list string)
    (m_start m_end : string → string) :
  NoDup ks →
  ks' ≡ₚ ks →
  let starts := (λ k, op_log_start k (m_start k) [] []) <$> ks in
  let ends := (λ k, op_log_end k (m_end k) [] []) <$> ks' in
  let st' := run (starts ++ ends) st in
  (∃ new, calls (world st') = calls (world st) ++ new
          ∧ length new = (2 * length ks)%nat
          ∧ Forall (λ c, call_level c = INFO) new)
  ∧ (∀ k, k ∈ ks → _start_times (self st') !! k = None)
  ∧ (∀ k, k ∉ ks → _start_times (self st') !! k = _start_times (self st) !! k).
Proof.
  intros Hnodup Hperm starts ends st'. subst st' starts ends. rewrite run_app.
  destruct (starts_effect m_start ks st) as ((new1 & Hc1 & Hl1 & Hi1) & Hin1 & Hout1).
  set (st1 := run ((λ k, op_log_start k (m_start k) [] []) <$> ks) st) in *.
  destruct (ends_effect m_end ks' st1) as ((new2 & Hc2 & Hl2 & Hi2) & Hin2 & Hout2).
  { by rewrite Hperm. }
  { intros k Hk. apply Hin1. by rewrite <- Hperm. }
  split; [|split].
  - exists (new1 ++ new2). rewrite Hc2, Hc1, app_assoc. repeat split.
    + rewrite length_app, Hl1, Hl2, Hperm. lia.
    + by apply Forall_app.
  - intros k Hk. apply Hin2. by rewrite Hperm.
  - intros k Hk. rewrite Hout2 by (by rewrite Hperm). by apply Hout1.
Qed.
End PairedBeacons.

(** ** The module over the life of a process *)

Lemma api_step_configured (T : Type) (c : ApiCall) (w : World) :
  _logging_configured w = true →
  let w' := api_step T w c in
  _logging_configured w' = true
  ∧ root_handlers w' = root_handlers w
  ∧ root_format w' = root_format w
  ∧ root_level w' = root_level w
  ∧ stdout w' = stdout w
  ∧ calls w' = calls w
  ∧ loggers w ⊆ loggers w'.
Proof.
  intros Hflag.
  assert (Hget : ∀ name w0, _logging_configured w0 = true →
            let w1 := (getLogger name w0).2 in
            _logging_configured w1 = true
            ∧ root_handlers w1 = root_handlers w0
            ∧ root_format w1 = root_format w0
            ∧ root_level w1 = root_level w0
            ∧ stdout w1 = stdout w0
            ∧ calls w1 = calls w0
            ∧ loggers w0 ⊆ loggers w1).
  { intros name w0 H0. unfold getLogger. case_decide; simpl; repeat split; try done.
    set_solver. }
  assert (Hinit : ∀ name prefix w0,
            (__init__ (T:=T) name prefix w0).2 = (getLogger name w0).2).
  { intros name prefix w0. unfold __init__, bind, ret.
    by destruct (getLogger name w0) as [[?|?] ?]. }
  destruct c as [env name cloud enable extra | env name prefix cloud enable extra
                | name prefix]; simpl.
  - destruct extra as [|[k v] extra]; simpl; [|done].
    rewrite setup_logging_configured by done. by apply Hget.
  - destruct extra as [|[k v] extra]; simpl; [|done].
    unfold get_prefixed_logger, bind.
    rewrite setup_logging_configured by done.
    destruct (Hget name w Hflag) as (F1 & H1 & M1 & L1 & O1 & C1 & G1).
    destruct (getLogger_returns name w) as [channel Hchannel].
    unfold returned in Hchannel.
    destruct (getLogger name w) as [[channel'|e] w1]; [|discriminate Hchannel].
    simpl in *. rewrite Hinit.
    destruct (Hget name w1 F1) as (F2 & H2 & M2 & L2 & O2 & C2 & G2).
    repeat split; try congruence. by etrans.
  - rewrite Hinit. by apply Hget.
Qed.

Lemma api_run_configured (T : Type) (cs : list ApiCall) (w : World) :
  _logging_configured w = true →
  let w' := foldl (api_step T) w cs in
  _logging_configured w' = true
  ∧ root_handlers w' = root_handlers w
  ∧ root_format w' = root_format w
  ∧ root_level w' = root_level w
  ∧ stdout w' = stdout w
  ∧ calls w' = calls w
  ∧ loggers w ⊆ loggers w'.
Proof.
  revert w. induction cs as [|c cs IH]; intros w Hflag; simpl; [done|].
  destruct (api_step_configured T c w Hflag) as (F1 & H1 & M1 & L1 & O1 & C1 & G1).
  destruct (IH _ F1) as (F2 & H2 & M2 & L2 & O2 & C2 & G2).
  repeat split; try congruence. by etrans.
Qed.

(** X6: once the flag is set, nothing the module offers can undo or redo
    the configuration.  For every sequence of calls of [setup_logging],
    [get_prefixed_logger] and [PrefixedLogger(...)], with any arguments, in
    any surroundings, accepted by the signature or not, the flag stays true,
    the sinks, the format and the level stay as they were, nothing is
    printed, and no logger is forgotten. *)
Theorem configuration_is_frozen_once_set (T : Type) (cs : list ApiCall) (w : World) :
  _logging_configured w = true →
  let w' := foldl (api_step T) w cs in
  _logging_configured w' = true
  ∧ root_handlers w' = root_handlers w
  ∧ root_format w' = root_format w
  ∧ root_level w' = root_level w
  ∧ stdout w' = stdout w
  ∧ loggers w ⊆ loggers w'.
Proof.
  intros Hflag.
  destruct (api_run_configured T cs w Hflag) as (? & ? & ? & ? & ? & _ & ?).
  simpl. auto 10.
Qed.

(** X7: a file sink that could not be built by the configuring call stays
    absent for the life of the process: whatever calls of the module follow,
    in whatever surroundings, the root logger never gets a
    [RotatingFileHandler]. *)
Theorem failed_file_sink_stays_absent (T : Type) (env : Env) (logger_name : string)
    (cloud_logger_name : option string) (enable_gcloud_logging : bool)
    (w : World) (cs : list ApiCall) :
  _logging_configured w = false →
  is_Some (RotatingFileHandler_raises env (LOGGING_FILE_PATH env) (1024 * 1024 * 100) 5) →
  let w1 := (setup_logging env logger_name cloud_logger_name enable_gcloud_logging w).2 in
  let w' := foldl (api_step T) w1 cs in
  ∀ filename maxBytes backupCount,
    RotatingFileHandler filename maxBytes backupCount ∉ root_handlers w'.
Proof.
  intros Hflag [e He] w1 w' filename maxBytes backupCount.
  destruct (setup_logging_first_call env logger_name cloud_logger_name
              enable_gcloud_logging w Hflag) as (_ & _ & Hflag1 & Hsinks & _).
  fold w1 in Hflag1, Hsinks.
  destruct (api_run_configured T cs w1 Hflag1) as (_ & Hsame & _).
  fold w' in Hsame. rewrite Hsame, Hsinks.
  unfold file_sink, cloud_sink. rewrite He, app_nil_r.
  rewrite elem_of_app, list_elem_of_singleton.
  intros [Hin | Hin]; [discriminate Hin|].
  destruct (_ && _); [|by apply elem_of_nil in Hin].
  destruct (cloud_sink_failure _ _); [by apply elem_of_nil in Hin|].
  apply list_elem_of_singleton in Hin. discriminate Hin.
Qed.

(** X8: the cloud client is not touched unless cloud logging is requested
    and the library was imported: otherwise the outcomes of
    [google.cloud.logging.Client()] and of [CloudLoggingHandler(...)] have no
    influence on what [setup_logging] returns, installs or prints. *)
Theorem cloud_constructors_unused_unless_enabled (env : Env)
    (client : option Exn) (handler : string → option Exn)
    (logger_name : string) (cloud_logger_name : option string)
    (enable_gcloud_logging : bool) (w : World) :
  enable_gcloud_logging && _GOOGLE_CLOUD_LOGGING_AVAILABLE env = false →
  setup_logging (with_cloud_outcomes env client handler) logger_name cloud_logger_name
    enable_gcloud_logging w
  = setup_logging env logger_name cloud_logger_name enable_gcloud_logging w.
Proof.
  intros Hoff. unfold setup_logging, with_cloud_outcomes, LOGGING_FILE_PATH. simpl.
  rewrite Hoff. reflexivity.
Qed.

(** X9: a failed import of the cloud library never costs the other sinks.
    Loading the module with an import that raises prints one warning and
    raises nothing; [setup_logging] afterwards, whether cloud logging is
    requested or not, returns a channel, installs the console sink and the
    file sink if it can be built, installs no cloud sink, and prints the
    "not available" warning only if cloud logging was requested. *)
Theorem failed_import_costs_only_the_cloud_sink (outcome : ImportOutcome)
    (surroundings : Env) (logger_name : string) (cloud_logger_name : option string)
    (enable_gcloud_logging : bool) (w : World) :
  outcome ≠ Imported →
  let r := (env <- load_module outcome surroundings;;
            setup_logging env logger_name cloud_logger_name enable_gcloud_logging) w in
  let import_warning :=
    match outcome with
    | Imported => []
    | RaisesImportError =>
        ["Warning: google-cloud-logging not installed. Google Cloud Logging functionality will be disabled."]
    | RaisesOther e =>
        ["Warning: Failed to import google.cloud.logging: " +:+ exc_str e
         +:+ ". Google Cloud Logging functionality will be disabled."]
    end in
  let request_warning :=
    if enable_gcloud_logging
    then ["Warning: Google Cloud Logging requested but library is not available or failed to import."]
    else [] in
  raised r = None
  ∧ is_Some (returned r)
  ∧ root_handlers r.2 = [StreamHandler] ++ file_sink surroundings
  ∧ (∀ name, CloudLoggingHandler name ∉ root_handlers r.2)
  ∧ stdout r.2
    = stdout w ++ import_warning ++ request_warning ++ file_warning surroundings
  ∧ _logging_configured r.2 = true.
Proof.
  intros Hfailed r import_warning request_warning.
  assert (Hload : ∃ env' w1,
            load_module outcome surroundings w = (Returned env', w1)
            ∧ _GOOGLE_CLOUD_LOGGING_AVAILABLE env' = false
            ∧ file_sink env' = file_sink surroundings
            ∧ file_warning env' = file_warning surroundings
            ∧ _logging_configured w1 = false
            ∧ stdout w1 = stdout w ++ import_warning).
  { destruct outcome; [done| |]; do 2 eexists; (split; [reflexivity|]);
      repeat split. }
  destruct Hload as (env' & w1 & Hload & Havail & Hfs & Hfw & Hflag1 & Hout1).
  assert (Hr : r = setup_logging env' logger_name cloud_logger_name
                    enable_gcloud_logging w1).
  { subst r. unfold bind at 1. by rewrite Hload. }
  clearbody r. subst r.
  destruct (setup_logging_first_call env' logger_name cloud_logger_name
              enable_gcloud_logging w1 Hflag1)
    as (Hraised & Hret & Hflag & Hsinks & Hout & _).
  unfold cloud_sink in Hsinks. unfold cloud_warning in Hout.
  rewrite Havail, andb_false_r, Hfs in Hsinks.
  rewrite Havail, Hfw, Hout1, <- app_assoc in Hout.
  repeat split; [exact Hraised | exact Hret | exact Hsinks | | exact Hout | exact Hflag].
  intros name. rewrite Hsinks. unfold file_sink.
  rewrite elem_of_app, list_elem_of_singleton.
  intros [Hin | Hin]; [discriminate Hin|].
  destruct (RotatingFileHandler_raises _ _ _ _); [by apply elem_of_nil in Hin|].
  apply list_elem_of_singleton in Hin. discriminate Hin.
Qed.

(** X10: the factory is the initializer followed by the constructor and
    adds nothing of its own: it raises nothing, the instance it returns is
    bound to the very channel [setup_logging] returns for that name, has the
    given prefix (or ["no-prefix"]) and no timer, and the process is left
    exactly as [setup_logging] alone leaves it. *)
Theorem factory_adds_nothing_to_the_initializer (T : Type) (env : Env)
    (logger_name : string) (prefix cloud_logger_name : option string)
    (enable_gcloud_logging : bool) (w : World) :
  let s := setup_logging env logger_name cloud_logger_name enable_gcloud_logging w in
  let f := get_prefixed_logger (T:=T) env logger_name prefix cloud_logger_name
             enable_gcloud_logging w in
  ∃ channel,
    returned s = Some channel
    ∧ returned f = Some {| logger := channel; _prefix := py_or prefix "no-prefix";
                           _start_times := ∅ |}
    ∧ f.2 = s.2
    ∧ _logging_configured f.2 = true.
Proof.
  intros s f.
  assert (Hagain : ∀ name (w0 : World),
            name ∈ loggers w0 ∨ name = "" ∨ name = "root" →
            getLogger name w0 = (Returned (if decide (name = "" ∨ name = "root")
                                           then "root" else name), w0)).
  { intros name w0 Hin. unfold getLogger. case_decide; [done|].
    destruct Hin as [Hin|Hin]; [|done]. f_equal. destruct w0; simpl in *. f_equal.
    apply subseteq_union_1_L. by apply singleton_subseteq_l. }
  assert (Hs : returned s = Some (if decide (logger_name = "" ∨ logger_name = "root")
                                  then "root" else logger_name)
               ∧ _logging_configured s.2 = true
               ∧ (logger_name ∈ loggers s.2 ∨ logger_name = "" ∨ logger_name = "root")).
  { subst s. destruct (_logging_configured w) eqn:Hflag.
    - rewrite setup_logging_configured by done. unfold getLogger, returned.
      case_decide; simpl; repeat split; auto. left. set_solver.
    - destruct enable_gcloud_logging;
        run_setup env; rewrite ?Hflag; run_setup env; repeat split; auto;
        left; set_solver. }
  destruct Hs as (Hret & Hflag & Hin).
  eexists. split; [exact Hret|].
  subst f. unfold get_prefixed_logger, bind. fold s.
  unfold returned in Hret. destruct s as [[channel|e] w1]; [|discriminate Hret].
  simpl in *. injection Hret as ->.
  unfold __init__, bind, ret. rewrite Hagain by done. simpl. done.
Qed.


(** ** The full set of sinks *)

(** X12: when cloud logging is requested, the library is there and every
    constructor succeeds, the first call installs exactly three sinks, in
    the order console, cloud, file, prints nothing, and sets the INFO level
    and the format of the module.  The cloud sink is named by
    [cloud_logger_name], or by [logger_name] when that is unset or empty. *)
Theorem all_sinks_in_order (env : Env) (logger_name : string)
    (cloud_logger_name : option string) (w : World) :
  let name :=
    match cloud_logger_name with
    | Some (String a s) => String a s
    | Some "" | None => logger_name
    end in
  _logging_configured w = false →
  _GOOGLE_CLOUD_LOGGING_AVAILABLE env = true →
  Client_raises env = None →
  CloudLoggingHandler_raises env name = None →
  RotatingFileHandler_raises env (LOGGING_FILE_PATH env) (1024 * 1024 * 100) 5 = None →
  let r := setup_logging env logger_name cloud_logger_name true w in
  root_handlers r.2
  = [StreamHandler; CloudLoggingHandler name;
     RotatingFileHandler (LOGGING_FILE_PATH env) 104857600 5]
  ∧ stdout r.2 = stdout w
  ∧ root_level r.2 = INFO
  ∧ root_format r.2 = Some "%(asctime)s - %(levelname)s - %(message)s".
Proof.
  intros name Hflag Havail Hclient Hhandler Hfile r.
  assert (Hname : py_or cloud_logger_name logger_name = name).
  { subst name. by destruct cloud_logger_name as [[|a s]|]. }
  destruct (setup_logging_first_call env logger_name cloud_logger_name true w Hflag)
    as (_ & _ & _ & Hsinks & Hout & Hformat & Hlevel & _).
  fold r in Hsinks, Hout, Hformat, Hlevel.
  unfold cloud_sink, file_sink, cloud_sink_failure in Hsinks.
  unfold cloud_warning, file_warning, cloud_sink_failure in Hout.
  rewrite Hname, Havail, Hclient, Hhandler, Hfile in Hsinks.
  rewrite Hname, Havail, Hclient, Hhandler, Hfile, !app_nil_r in Hout.
  done.
Qed.

(** X12, witness: [setup_logging] called with its defaults but an empty
    cloud name. *)
Lemma all_sinks_in_order_witness :
  _logging_configured fresh_world = false
  ∧ root_handlers (setup_logging cloud_env "cloud_bear_logger" (Some "") true fresh_world).2
    = [StreamHandler; CloudLoggingHandler "cloud_bear_logger";
       RotatingFileHandler "/var/log/app.log" 104857600 5].
Proof.
  assert (Hflag : _logging_configured fresh_world = false) by reflexivity.
  split; [exact Hflag|].
  by destruct (all_sinks_in_order cloud_env "cloud_bear_logger" (Some "") fresh_world
                 Hflag eq_refl eq_refl eq_refl eq_refl) as (-> & _).
Defined.

(** ** Witnesses *)

(** X2, witness: between the start and the end of ["task-1"] the owner
    changes the prefix, starts another timer and logs. *)
Lemma timer_measures_from_its_own_start_witness :
  Forall (λ op, touches "task-1" op = false)
    [op_update_prefix (Some "phase-2"); op_log_start "other" "side work" [] [];
     op_info "working" [] []]
  ∧ last (call_msg <$>
          calls (world
                   (log_end "task-1" "done" [] []
                      (run [op_update_prefix (Some "phase-2");
                            op_log_start "other" "side work" [] [];
                            op_info "working" [] []]
                         (log_start "task-1" "go" [] [] beacon_test)))))
    = Some "[phase-2] (BEACON - [task-1] - END (Elapsed time 2.50 s)) done ".
Proof.
  assert (Hops : Forall (λ op, touches "task-1" op = false)
                   [op_update_prefix (Some "phase-2");
                    op_log_start "other" "side work" [] []; op_info "working" [] []])
    by (repeat constructor).
  split; [exact Hops|].
  destruct (timer_measures_from_its_own_start beacon_test "task-1" _ "go" "done"
              [] [] [] [] Hops) as (_ & -> & _).
  vm_compute. reflexivity.
Defined.

(** X3, witness: [test_beacon_timer_logging] starts from an empty timer
    map and ends with an empty one. *)
Lemma start_then_end_restores_timers_witness :
  _start_times (self beacon_test) !! "task-1" = None
  ∧ _start_times
      (self (log_end "task-1" "Finished the task." [] []
               (log_start "task-1" "Starting the task." [] [] beacon_test)))
    = _start_times (self beacon_test).
Proof.
  assert (Hk : _start_times (self beacon_test) !! "task-1" = None) by reflexivity.
  split; [exact Hk|].
  by destruct (start_then_end_restores_timers beacon_test "task-1"
                 "Starting the task." "Finished the task." [] [] [] [] Hk) as (-> & _).
Defined.

(** X4, witness: an instance built with the empty prefix, whose owner then
    tries the empty and the unset prefix. *)
Lemma prefix_is_never_empty_witness :
  returned (__init__ (T:=float) "app" (Some "") fresh_world)
  = Some {| logger := "app"; _prefix := "no-prefix"; _start_times := ∅ |}
  ∧ _prefix (self (run [op_update_prefix (Some ""); op_update_prefix None]
                     {| self := {| logger := "app"; _prefix := "no-prefix";
                                   _start_times := ∅ |};
                        world := fresh_world; clock := clock beacon_test |}))
    ≠ "".
Proof.
  assert (Hlg : returned (__init__ (T:=float) "app" (Some "") fresh_world)
                = Some {| logger := "app"; _prefix := "no-prefix"; _start_times := ∅ |})
    by reflexivity.
  split; [exact Hlg|].
  apply (prefix_is_never_empty "app" (Some "") fresh_world fresh_world _
           (clock beacon_test) _ Hlg).
Defined.

(** X5, witness: two timers, ended in the reverse order. *)
Lemma paired_beacons_never_warn_witness :
  NoDup ["outer"; "inner"]
  ∧ ["inner"; "outer"] ≡ₚ ["outer"; "inner"]
  ∧ ∀ k, k ∈ ["outer"; "inner"] →
         _start_times
           (self (run (((λ k, op_log_start k "begin" [] []) <$> ["outer"; "inner"])
                       ++ ((λ k, op_log_end k "end" [] []) <$> ["inner"; "outer"]))
                    beacon_test)) !! k = None.
Proof.
  assert (Hnodup : NoDup ["outer"; "inner"]) by compute_done.
  assert (Hperm : ["inner"; "outer"] ≡ₚ ["outer"; "inner"]) by apply perm_swap.
  split; [exact Hnodup|]. split; [exact Hperm|].
  by destruct (paired_beacons_never_warn beacon_test _ _ (λ _, "begin") (λ _, "end")
                 Hnodup Hperm) as (_ & Hgone & _).
Defined.

(** X6, witness: after the first configuration, a rejected call, a factory
    call that asks for cloud logging and a direct construction. *)
Lemma configuration_is_frozen_once_set_witness :
  _logging_configured configured_world = true
  ∧ root_handlers
      (foldl (api_step float) configured_world
         [api_setup_logging hostile_env (Some "second_config_logger") None None
            [("log_file_path", PyStr "second_run.txt")];
          api_get_prefixed_logger hostile_env "my_app" (Some (Some "TEST"))
            (Some (Some "my_cloud_app")) (Some true) [];
          api_PrefixedLogger "init_test" (Some "my-prefix")])
    = root_handlers configured_world.
Proof.
  assert (Hflag : _logging_configured configured_world = true) by reflexivity.
  split; [exact Hflag|].
  by destruct (configuration_is_frozen_once_set float
                 [api_setup_logging hostile_env (Some "second_config_logger") None None
                    [("log_file_path", PyStr "second_run.txt")];
                  api_get_prefixed_logger hostile_env "my_app" (Some (Some "TEST"))
                    (Some (Some "my_cloud_app")) (Some true) [];
                  api_PrefixedLogger "init_test" (Some "my-prefix")]
                 configured_world Hflag) as (_ & -> & _).
Defined.

(** X7, witness: the log file cannot be opened when the process is
    configured, and can when the factory is called later. *)
Lemma failed_file_sink_stays_absent_witness :
  _logging_configured fresh_world = false
  ∧ is_Some (RotatingFileHandler_raises readonly_env (LOGGING_FILE_PATH readonly_env)
               (1024 * 1024 * 100) 5)
  ∧ RotatingFileHandler "logs.txt" 104857600 5
    ∉ root_handlers
        (foldl (api_step float)
           (setup_logging readonly_env "app" None false fresh_world).2
           [api_get_prefixed_logger plain_env "app" None None None []]).
Proof.
  assert (Hflag : _logging_configured fresh_world = false) by reflexivity.
  assert (Hfile : is_Some (RotatingFileHandler_raises readonly_env
                             (LOGGING_FILE_PATH readonly_env) (1024 * 1024 * 100) 5))
    by (by eexists).
  split; [exact Hflag|]. split; [exact Hfile|].
  apply (failed_file_sink_stays_absent float readonly_env "app" None false fresh_world
           [api_get_prefixed_logger plain_env "app" None None None []] Hflag Hfile).
Defined.

(** X8, witness: cloud logging is requested, the library is not there, and
    the client would fail for lack of credentials. *)
Lemma cloud_constructors_unused_unless_enabled_witness :
  true && _GOOGLE_CLOUD_LOGGING_AVAILABLE plain_env = false
  ∧ setup_logging
      (with_cloud_outcomes plain_env
         (Some {| exc_type := "DefaultCredentialsError"; exc_str := "no credentials" |})
         (λ _, None)) "app" None true fresh_world
    = setup_logging plain_env "app" None true fresh_world.
Proof.
  assert (Hoff : true && _GOOGLE_CLOUD_LOGGING_AVAILABLE plain_env = false)
    by reflexivity.
  split; [exact Hoff|].
  apply (cloud_constructors_unused_unless_enabled plain_env _ _ "app" None true
           fresh_world Hoff).
Defined.

(** X9, witness: the library is not installed and cloud logging is
    requested all the same. *)
Lemma failed_import_costs_only_the_cloud_sink_witness :
  RaisesImportError ≠ Imported
  ∧ root_handlers
      ((env <- load_module RaisesImportError hostile_env;;
        setup_logging env "app" None true) fresh_world).2
    = [StreamHandler] ++ file_sink hostile_env.
Proof.
  assert (Hfailed : RaisesImportError ≠ Imported) by discriminate.
  split; [exact Hfailed|].
  by destruct (failed_import_costs_only_the_cloud_sink RaisesImportError hostile_env
                 "app" None true fresh_world Hfailed) as (_ & _ & -> & _).
Defined.

